(** * WhiteToAlpha: [rebuild_transparency.py]

    A shallow embedding of the per-pixel unblending function
    [calculate_transparency] and of the image pipeline
    [convert_image_to_transparent], with the properties the specification
    states about them.

    Python [int] is [Z].  Python [float] is IEEE-754 binary64, modelled by
    the Standard Library's [spec_float] operations at precision 53 and
    maximal exponent 1024 (round to nearest, ties to even).  Python
    exceptions are the [Raise] results of a small error monad. *)

From Stdlib Require Import ZArith QArith Qabs Qround Lia Lqa.
From Stdlib Require Import Floats.SpecFloat.
From stdpp Require Import base option list strings gmap.

Local Open Scope Z_scope.

(** ** Exceptions *)

Inductive exn : Type :=
| ZeroDivisionError
| OverflowError
| ValueError
| TypeError
| FileNotFoundError
| PermissionError.

Inductive result (A : Type) : Type :=
| Ok (a : A)
| Raise (e : exn).

Arguments Ok {A} a.
Arguments Raise {A} e.

#[global] Instance result_ret : MRet result := fun _ a => Ok a.

#[global] Instance result_bind : MBind result := fun _ _ f m =>
  match m with
  | Ok a => f a
  | Raise e => Raise e
  end.

(** ** Python floats *)

Module Float.

Definition prec : Z := 53.
Definition emax : Z := 1024.

Definition add : spec_float -> spec_float -> spec_float := SFadd prec emax.
Definition sub : spec_float -> spec_float -> spec_float := SFsub prec emax.
Definition mul : spec_float -> spec_float -> spec_float := SFmul prec emax.
Definition div : spec_float -> spec_float -> spec_float := SFdiv prec emax.

(** The literal [0.5] and [sys.float_info.epsilon] (2^-52). *)
Definition half : spec_float := S754_finite false 4503599627370496 (-53).
Definition epsilon : spec_float := S754_finite false 4503599627370496 (-104).

Definition is_zero (x : spec_float) : bool :=
  match x with
  | S754_zero _ => true
  | _ => false
  end.

(** The rational value of a finite float. *)
Definition to_Q (x : spec_float) : Q :=
  match x with
  | S754_finite s m e =>
      let a := (if s then Z.neg m else Z.pos m) in
      match e with
      | Z.neg p => a # (2 ^ p)
      | _ => inject_Z (a * 2 ^ e)
      end
  | _ => 0%Q
  end.

End Float.

(** Conversion of an [int] operand of a mixed [int]/[float] operation:
    the nearest float, [OverflowError] when the integer is too large. *)
Definition float_of_int (n : Z) : result spec_float :=
  match binary_normalize Float.prec Float.emax n 0 false with
  | S754_infinity _ => Raise OverflowError
  | x => Ok x
  end.

(** [float / float]. *)
Definition float_truediv (x y : spec_float) : result spec_float :=
  if Float.is_zero y then Raise ZeroDivisionError else Ok (Float.div x y).

(** [int / int], Python's true division.  Both operands are converted and
    divided; for operands below 2^53 in absolute value the conversions are
    exact and this is the correctly rounded quotient Python computes. *)
Definition int_truediv (a b : Z) : result spec_float :=
  x ← float_of_int a;
  y ← float_of_int b;
  float_truediv x y.

(** [int - float] and [float * int]. *)
Definition int_sub_float (n : Z) (y : spec_float) : result spec_float :=
  x ← float_of_int n;
  Ok (Float.sub x y).

Definition float_mul_int (x : spec_float) (n : Z) : result spec_float :=
  y ← float_of_int n;
  Ok (Float.mul x y).

(** [int(x)] on a float: truncation toward zero. *)
Definition int_of_float (x : spec_float) : result Z :=
  match x with
  | S754_zero _ => Ok 0
  | S754_finite s m e =>
      let a := match e with
               | Z.neg p => Z.shiftr (Z.pos m) (Z.pos p)
               | _ => Z.shiftl (Z.pos m) e
               end in
      Ok (if s then - a else a)
  | S754_infinity _ => Raise OverflowError
  | S754_nan => Raise ValueError
  end.

(** ** The unblend function *)

(** [EPSILON_HALF = 0.5 - sys.float_info.epsilon] *)
Definition EPSILON_HALF : spec_float := Float.sub Float.half Float.epsilon.

(** [min(r, g, b)] *)
Definition min3 (r g b : Z) : Z := Z.min (Z.min r g) b.

(** The sub-expression [(v - (1 - ratio) * 255) / (ratio)], evaluated for
    [r], [g] and [b] in turn. *)
Definition recovered_channel (v : Z) (ratio : spec_float)
  : result spec_float :=
  t ← int_sub_float 1 ratio;
  w ← float_mul_int t 255;
  n ← int_sub_float v w;
  float_truediv n ratio.

(** [int((v - (1 - ratio) * 255) / (ratio) + EPSILON_HALF)] *)
Definition restore_channel (v : Z) (ratio : spec_float) : result Z :=
  q ← recovered_channel v ratio;
  int_of_float (Float.add q EPSILON_HALF).

Definition calculate_transparency (r g b : Z) : result (Z * Z * Z * Z) :=
  let alpha := 255 - min3 r g b in
  if alpha =? 0 then Ok (0, 0, 0, 0)
  else
    ratio ← int_truediv alpha 255;
    new_r ← restore_channel r ratio;
    new_g ← restore_channel g ratio;
    new_b ← restore_channel b ratio;
    Ok (new_r, new_g, new_b, alpha).

(** ** Vocabulary of the specification *)

(** An 8-bit channel value. *)
Definition byte_range (v : Z) : Prop := 0 <= v <= 255.

(** Rounding of a rational to the nearest integer, halves upward. *)
Definition round_half_up (q : Q) : Z := Qfloor (q + (1 # 2)).

(** Truncation of a rational toward zero. *)
Definition Qtrunc (q : Q) : Z :=
  if (Qnum q <? 0) then Qceiling q else Qfloor q.

(** [c] is an integer nearest to the exact quotient
    [255 * (v - 255 + alpha) / alpha], the value the inverse compositing
    equation has over the rationals: twice the distance is at most one. *)
Definition nearest_to_exact (v alpha c : Z) : Prop :=
  Z.abs (2 * alpha * c - 510 * (v - 255 + alpha)) <= alpha.

(** Compositing a channel [c] over white at opacity [a / 255]:
    [c * (a / 255) + 255 * (1 - a / 255)]. *)
Definition composite_over_white (c a : Z) : Q :=
  (inject_Z c * (inject_Z a / 255) + 255 * (1 - inject_Z a / 255))%Q.

(** The recovery formula and the function over exact rationals: the same
    expressions as [restore_channel] and [calculate_transparency], every
    float operation replaced by the rational one and [EPSILON_HALF] by its
    rational value. *)
Definition EPSILON_HALF_exact : Q := ((1 # 2) - (1 # 2 ^ 52))%Q.

Definition recovered_exact (v : Z) (ratio : Q) : Q :=
  ((inject_Z v - (1 - ratio) * 255) / ratio)%Q.

Definition restore_channel_exact (v : Z) (ratio : Q) : Z :=
  Qtrunc (recovered_exact v ratio + EPSILON_HALF_exact).

Definition calculate_transparency_exact (r g b : Z) : Z * Z * Z * Z :=
  let alpha := 255 - min3 r g b in
  if alpha =? 0 then (0, 0, 0, 0)
  else
    let ratio := (inject_Z alpha / 255)%Q in
    (restore_channel_exact r ratio,
     restore_channel_exact g ratio,
     restore_channel_exact b ratio,
     alpha).

(** ** Enumeration of the 8-bit range *)

(** The part of [recovered_channel] that depends on [v], with the float
    [w = (1 - ratio) * 255] already evaluated, so that the enumeration
    computes it once per [alpha]. *)
Definition white_part (ratio : spec_float) : result spec_float :=
  t ← int_sub_float 1 ratio;
  float_mul_int t 255.

Definition recovered_from (v : Z) (w ratio : spec_float)
  : result spec_float :=
  n ← int_sub_float v w;
  float_truediv n ratio.

(** [upto n] is [0; 1; ...; n-1]. *)
Definition upto (n : nat) : list Z := Z.of_nat <$> seq 0 n.

(** The check of one channel value: the truncated sum is the half-up
    rounding of the float quotient and is nearest to the exact quotient. *)
Definition channel_ok (eh : spec_float) (alpha v : Z) (w ratio : spec_float)
  : bool :=
  match recovered_from v w ratio with
  | Ok q =>
      match int_of_float (Float.add q eh) with
      | Ok c =>
          (c =? round_half_up (Float.to_Q q)) &&
          (Z.abs (2 * alpha * c - 510 * (v - 255 + alpha)) <=? alpha)
      | Raise _ => false
      end
  | Raise _ => false
  end.

Definition alpha_ok (eh : spec_float) (alpha : Z) : bool :=
  match int_truediv alpha 255 with
  | Ok ratio =>
      match white_part ratio with
      | Ok w =>
          negb (Float.is_zero ratio) &&
          forallb (fun v => (v <? 255 - alpha) || channel_ok eh alpha v w ratio)
                  (upto 256)
      | Raise _ => false
      end
  | Raise _ => false
  end.

(** What the enumeration establishes for one channel: the float quotient
    [q], the integer [c] obtained from it, and their relation to the
    rounding functions. *)
Definition restored (alpha : Z) (ratio : spec_float) (v c : Z) : Prop :=
  exists q,
    recovered_channel v ratio = Ok q /\
    int_of_float (Float.add q EPSILON_HALF) = Ok c /\
    c = round_half_up (Float.to_Q q) /\
    nearest_to_exact v alpha c.

(** Every usual rounding of [x] is within one of [v]. *)
Definition within_one (x : Q) (v : Z) : Prop :=
  Z.abs (Qfloor x - v) <= 1 /\
  Z.abs (Qceiling x - v) <= 1 /\
  Z.abs (round_half_up x - v) <= 1.

(** ** The image pipeline *)

(** A decoded Pillow image: its mode, the [info] dictionary, its size
    (width, height) and the pixel sequence of [getdata()], row-major from
    the top-left corner, one list of band values per pixel. *)
Record Image : Type := mkImage {
  mode : string;
  info : gmap string Z;
  size : nat * nat;
  getdata : list (list Z)
}.

(** The files that decode as images, and what was printed. *)
Record World : Type := mkWorld {
  files : gmap string Image;
  stdout : list string
}.

Definition WARNING : string :=
  "Warning: Transparency data found in the image will not be used in the conversion.".

Definition print (s : string) (w : World) : World :=
  {| files := files w; stdout := stdout w ++ [s] |}.

(** [Image.open(path)].  A path that holds no decodable image raises.  The
    model raises [FileNotFoundError] for every such path; Pillow raises
    other exceptions for a file that exists and is not an image, and the
    theorems below use only that the call raises, not which exception. *)
Definition Image_open (w : World) (path : string) : result Image :=
  match files w !! path with
  | Some img => Ok img
  | None => Raise FileNotFoundError
  end.

(** [img.mode in ("RGBA", "LA") or
     (img.mode == "P" and "transparency" in img.info)] *)
Definition transparency_check (img : Image) : bool :=
  (String.eqb (mode img) "RGBA" || String.eqb (mode img) "LA") ||
  (String.eqb (mode img) "P" &&
   bool_decide (is_Some (info img !! "transparency"))).

(** A call with an unpacked argument tuple, for a function of three
    positional arguments. *)
Definition star_apply {A : Type} (f : Z -> Z -> Z -> result A) (px : list Z)
  : result A :=
  match px with
  | [r; g; b] => f r g b
  | _ => Raise TypeError
  end.

(** [Image.new(mode, size)]: every pixel zero. *)
Definition Image_new (m : string) (sz : nat * nat) : Image :=
  {| mode := m; info := ∅; size := sz;
     getdata := replicate (sz.1 * sz.2) [0; 0; 0; 0] |}.

(** What Pillow stores for a band value in an 8-bit image. *)
Definition clip8 (z : Z) : Z := Z.max 0 (Z.min 255 z).

Definition quad_bands (p : Z * Z * Z * Z) : list Z :=
  let '(R, G, B, A) := p in [clip8 R; clip8 G; clip8 B; clip8 A].

(** [img.putdata(pixels)]: the sequence is copied from the first pixel on;
    more entries than pixels is a [TypeError]. *)
Definition putdata (img : Image) (pixels : list (Z * Z * Z * Z))
  : result Image :=
  if (img.(size).1 * img.(size).2 <? length pixels)%nat
  then Raise TypeError
  else Ok {| mode := mode img; info := info img; size := size img;
             getdata := (quad_bands <$> pixels) ++
                        drop (length pixels) (getdata img) |}.

(** What the specification calls transparency information. *)
Definition has_alpha_channel (img : Image) : Prop := mode img = "RGBA".
Definition has_luminance_alpha_channel (img : Image) : Prop :=
  mode img = "LA".
Definition has_transparent_palette_index (img : Image) : Prop :=
  mode img = "P" /\ is_Some (info img !! "transparency").

Definition carries_transparency (img : Image) : Prop :=
  has_alpha_channel img \/ has_luminance_alpha_channel img \/
  has_transparent_palette_index img.

(** A pixel of an image in mode RGB. *)
Definition rgb_pixel (px : list Z) : Prop :=
  exists r g b, px = [r; g; b] /\ byte_range r /\ byte_range g /\ byte_range b.

Section Pipeline.

(** The two Pillow operations taken as given: [img.convert(mode)], and
    whether [save] can encode an RGBA image at a path. *)
Variable convert : Image -> string -> Image.
Variable can_save : string -> bool.

(** [img.save(path)].  A save that succeeds stores the image at the path;
    what a later [Image.open] reads back depends on the format and is not
    modelled.  The failure modelled is the one where the path cannot be
    opened for writing: it raises and leaves the files as they are.  A
    failure inside the encoder, which Pillow reaches after the file was
    opened for writing, is not modelled: the theorems on failing runs say
    nothing about the output path. *)
Definition Image_save (img : Image) (path : string) (w : World)
  : result World :=
  if can_save path
  then Ok {| files := <[path := img]> (files w); stdout := stdout w |}
  else Raise PermissionError.

Definition convert_image_to_transparent
    (input_file output_file : string) (w : World) : World * result unit :=
  match Image_open w input_file with
  | Raise e => (w, Raise e)
  | Ok img =>
      let w := if transparency_check img then print WARNING w else w in
      let rgb_img := convert img "RGB" in
      match mapM (star_apply calculate_transparency) (getdata rgb_img) with
      | Raise e => (w, Raise e)
      | Ok pixels =>
          let transparent_img := Image_new "RGBA" (size img) in
          match putdata transparent_img pixels with
          | Raise e => (w, Raise e)
          | Ok transparent_img =>
              match Image_save transparent_img output_file w with
              | Raise e => (w, Raise e)
              | Ok w => (w, Ok tt)
              end
          end
      end
  end.

End Pipeline.

(** [out] is the RGBA image of the unblended pixels of [rgb]: same size,
    and at every position the quadruple the function returns for the triple
    at that position. *)
Definition unblended_image (rgb out : Image) : Prop :=
  mode out = "RGBA" /\
  size out = size rgb /\
  length (getdata out) = length (getdata rgb) /\
  forall (i : nat) (r g b : Z),
    getdata rgb !! i = Some [r; g; b] ->
    exists R G B A,
      calculate_transparency r g b = Ok (R, G, B, A) /\
      getdata out !! i = Some [R; G; B; A].

(** Two small images and a stand-in for the conversion, for the examples:
    a 2x1 RGB image, and a 1x1 paletted image whose index 0 is transparent
    and shows as white. *)
Definition example_rgb : Image :=
  {| mode := "RGB"; info := ∅; size := (2, 1)%nat;
     getdata := [[255; 128; 128]; [0; 0; 0]] |}.

Definition example_paletted : Image :=
  {| mode := "P"; info := {[ "transparency" := 0 ]}; size := (1, 1)%nat;
     getdata := [[0]] |}.

Definition example_convert (img : Image) (m : string) : Image :=
  {| mode := m; info := info img; size := size img;
     getdata := (fun px => match px with
                           | [_; _; _] => px
                           | _ => [255; 255; 255]
                           end) <$> getdata img |}.

Definition example_world (img : Image) : World :=
  {| files := {[ "in.png" := img ]}; stdout := [] |}.

(** ** The command line *)

(** How the script ends: it runs to its last line, it calls
    [sys.exit(code)], or an exception reaches the top level. *)
Inductive outcome : Type :=
| Finished
| SystemExit (code : Z)
| Uncaught (e : exn).

(** The exit status of the interpreter for each ending. *)
Definition exit_status (o : outcome) : Z :=
  match o with
  | Finished => 0
  | SystemExit code => code
  | Uncaught _ => 1
  end.

(** [print(a, b)]: the two strings on one line, a space between them. *)
Definition print2 (a b : string) (w : World) : World :=
  print (String.append a (String.append " " b)) w.

Definition COMPLETED : string := "Conversion completed. Output saved as:".

Section Main.

Variable convert : Image -> string -> Image.
Variable can_save : string -> bool.

(** [os.path.basename(__file__)] *)
Variable program_name : string.

Definition usage : string :=
  String.append "Usage: "
    (String.append program_name " <input_file> <output_file>").

(** The block under [if __name__ == "__main__"], on [sys.argv]. *)
Definition main (argv : list string) (w : World) : World * outcome :=
  if negb (length argv =? 3)%nat
  then (print usage w, SystemExit 1)
  else
    match argv with
    | [_; input_file; output_file] =>
        match convert_image_to_transparent convert can_save
                input_file output_file w with
        | (w, Raise e) => (w, Uncaught e)
        | (w, Ok _) => (print2 COMPLETED output_file w, Finished)
        end
    | _ => (print usage w, SystemExit 1)
    end.

End Main.

(** ** Further vocabulary *)

(** The float [k + 0.5], for an integer [k]. *)
Definition float_half_above (k : Z) : spec_float :=
  binary_normalize Float.prec Float.emax (2 * k + 1) (-1) false.

(** The exact quotient of a channel is a half: [255 * (v - 255 + alpha) /
    alpha] is an integer plus one half. *)
Definition exact_tie (v alpha : Z) : Prop :=
  0 < alpha /\ (510 * (v - 255 + alpha)) mod (2 * alpha) = alpha.



(** An RGB pixel sequence paired with the unblended sequence an opaque
    image gives: each triple with 255 appended. *)
Definition with_alpha_255 (px : list Z) : list Z := px ++ [255].

(** Two more images for the examples: an all-white one and one whose
    pixels all have a channel at 0. *)
Definition example_white : Image :=
  {| mode := "RGB"; info := ∅; size := (1, 2)%nat;
     getdata := [[255; 255; 255]; [255; 255; 255]] |}.

Definition example_opaque : Image :=
  {| mode := "RGB"; info := ∅; size := (2, 1)%nat;
     getdata := [[200; 0; 17]; [0; 0; 0]] |}.

(** * Properties *)

(** ** The enumeration *)

Lemma all_alphas_ok_true :
  forallb (fun alpha => (alpha =? 0) || alpha_ok EPSILON_HALF alpha)
          (upto 256) = true.
Proof. vm_compute. reflexivity. Qed.

Lemma elem_upto (n : nat) (z : Z) : 0 <= z < Z.of_nat n -> In z (upto n).
Proof.
  intros Hz. unfold upto.
  replace z with (Z.of_nat (Z.to_nat z)) by lia.
  apply in_map, in_seq. lia.
Qed.

Lemma recovered_channel_from (v : Z) (ratio : spec_float) :
  recovered_channel v ratio = w ← white_part ratio; recovered_from v w ratio.
Proof.
  unfold recovered_channel, white_part, recovered_from.
  destruct (int_sub_float 1 ratio) as [t|e]; [|reflexivity].
  cbn. destruct (float_mul_int t 255); reflexivity.
Qed.

Lemma restored_channel alpha ratio v c :
  restored alpha ratio v c -> restore_channel v ratio = Ok c.
Proof.
  intros (q & Hq & Hc & _). unfold restore_channel. rewrite Hq. exact Hc.
Qed.

Lemma ratio_spec (alpha : Z) :
  1 <= alpha <= 255 ->
  exists ratio,
    int_truediv alpha 255 = Ok ratio /\
    Float.is_zero ratio = false /\
    forall v, 255 - alpha <= v <= 255 -> exists c, restored alpha ratio v c.
Proof.
  intros Ha.
  assert (Ia : In alpha (upto 256)) by (apply elem_upto; lia).
  pose proof (proj1 (forallb_forall _ _) all_alphas_ok_true alpha Ia) as H.
  apply orb_true_iff in H. destruct H as [H|H]; [lia|].
  unfold alpha_ok in H.
  destruct (int_truediv alpha 255) as [ratio|] eqn:Er; [|discriminate].
  destruct (white_part ratio) as [w|] eqn:Ew; [|discriminate].
  apply andb_true_iff in H. destruct H as [Hz H].
  exists ratio. split; [reflexivity|]. split; [now apply negb_true_iff|].
  intros v Hv.
  assert (Iv : In v (upto 256)) by (apply elem_upto; lia).
  pose proof (proj1 (forallb_forall _ _) H v Iv) as Hc. cbv beta in Hc.
  apply orb_true_iff in Hc. destruct Hc as [Hc|Hc]; [lia|].
  unfold channel_ok in Hc.
  destruct (recovered_from v w ratio) as [q|] eqn:Eq; [|discriminate].
  destruct (int_of_float (Float.add q EPSILON_HALF)) as [c|] eqn:Ec;
    [|discriminate].
  apply andb_true_iff in Hc. destruct Hc as [H1 H2].
  exists c, q. repeat split.
  - rewrite recovered_channel_from, Ew. exact Eq.
  - exact Ec.
  - now apply Z.eqb_eq.
  - unfold nearest_to_exact. lia.
Qed.

(** ** The unblend function on 8-bit inputs *)

Lemma min3_range r g b :
  byte_range r -> byte_range g -> byte_range b ->
  byte_range (min3 r g b) /\
  min3 r g b <= r /\ min3 r g b <= g /\ min3 r g b <= b /\
  (min3 r g b = r \/ min3 r g b = g \/ min3 r g b = b).
Proof. unfold byte_range, min3. lia. Qed.

Lemma calculate_transparency_zero r g b :
  255 - min3 r g b = 0 -> calculate_transparency r g b = Ok (0, 0, 0, 0).
Proof. intros H. unfold calculate_transparency. rewrite H. reflexivity. Qed.

Lemma calculate_transparency_nonzero r g b :
  byte_range r -> byte_range g -> byte_range b ->
  255 - min3 r g b <> 0 ->
  exists ratio R G B,
    int_truediv (255 - min3 r g b) 255 = Ok ratio /\
    Float.is_zero ratio = false /\
    restored (255 - min3 r g b) ratio r R /\
    restored (255 - min3 r g b) ratio g G /\
    restored (255 - min3 r g b) ratio b B /\
    calculate_transparency r g b = Ok (R, G, B, 255 - min3 r g b).
Proof.
  intros Hr Hg Hb Hnz.
  destruct (min3_range r g b Hr Hg Hb) as (Hm & Hmr & Hmg & Hmb & _).
  unfold byte_range in *.
  destruct (ratio_spec (255 - min3 r g b)) as (ratio & Er & Hz & Hch); [lia|].
  destruct (Hch r) as [R HR]; [lia|].
  destruct (Hch g) as [G HG]; [lia|].
  destruct (Hch b) as [B HB]; [lia|].
  exists ratio, R, G, B. repeat split; try assumption.
  unfold calculate_transparency.
  destruct (Z.eqb_spec (255 - min3 r g b) 0) as [E|_]; [contradiction|].
  rewrite Er. cbn.
  rewrite (restored_channel _ _ _ _ HR). cbn.
  rewrite (restored_channel _ _ _ _ HG). cbn.
  rewrite (restored_channel _ _ _ _ HB). reflexivity.
Qed.

Lemma nearest_bounds v alpha c :
  1 <= alpha <= 255 -> 255 - alpha <= v <= 255 ->
  nearest_to_exact v alpha c -> 0 <= c <= 255.
Proof. unfold nearest_to_exact. intros Ha Hv Hn. nia. Qed.

Lemma nearest_at_min alpha c :
  1 <= alpha <= 255 -> nearest_to_exact (255 - alpha) alpha c -> c = 0.
Proof. unfold nearest_to_exact. intros Ha Hn. nia. Qed.

Lemma nearest_opaque v c : nearest_to_exact v 255 c -> c = v.
Proof. unfold nearest_to_exact. intros Hn. lia. Qed.

Lemma restored_nearest alpha ratio v c :
  restored alpha ratio v c -> nearest_to_exact v alpha c.
Proof. intros (q & _ & _ & _ & Hn). exact Hn. Qed.

(** On 8-bit inputs the function returns, with every component an 8-bit
    value and the alpha component [255 - min(r, g, b)]. *)
Lemma calculate_transparency_returns r g b :
  byte_range r -> byte_range g -> byte_range b ->
  exists R G B,
    calculate_transparency r g b = Ok (R, G, B, 255 - min3 r g b) /\
    byte_range R /\ byte_range G /\ byte_range B /\
    byte_range (255 - min3 r g b).
Proof.
  intros Hr Hg Hb.
  destruct (min3_range r g b Hr Hg Hb) as (Hm & Hmr & Hmg & Hmb & _).
  destruct (Z.eq_dec (255 - min3 r g b) 0) as [E|E].
  - exists 0, 0, 0. rewrite E.
    split; [now apply calculate_transparency_zero|].
    unfold byte_range. lia.
  - destruct (calculate_transparency_nonzero r g b Hr Hg Hb E)
      as (ratio & R & G & B & _ & _ & HR & HG & HB & H).
    apply restored_nearest in HR, HG, HB.
    exists R, G, B. split; [exact H|].
    unfold byte_range in *.
    repeat split;
      solve [ eapply nearest_bounds; [| |eassumption]; lia | lia ].
Qed.

(** C1. For r, g, b in 0..255 the function returns a quadruple whose alpha
    component is [255 - min(r, g, b)]. *)
Theorem alpha_is_255_minus_min r g b :
  byte_range r -> byte_range g -> byte_range b ->
  exists R G B, calculate_transparency r g b = Ok (R, G, B, 255 - min3 r g b).
Proof.
  intros Hr Hg Hb.
  destruct (calculate_transparency_returns r g b Hr Hg Hb)
    as (R & G & B & H & _).
  now exists R, G, B.
Qed.

Lemma alpha_is_255_minus_min_witness :
  byte_range 255 /\ byte_range 128 /\ byte_range 128 /\
  exists R G B,
    calculate_transparency 255 128 128 = Ok (R, G, B, 255 - min3 255 128 128).
Proof.
  assert (H255 : byte_range 255) by (unfold byte_range; lia).
  assert (H128 : byte_range 128) by (unfold byte_range; lia).
  exact (conj H255 (conj H128 (conj H128
    (alpha_is_255_minus_min 255 128 128 H255 H128 H128)))).
Defined.

(** C3. For r, g, b in 0..255 with [min(r, g, b) = 255], that is with
    [255 - min(r, g, b) = 0], the function returns exactly (0, 0, 0, 0); so
    it does for pure white.  The division is not performed: the ratio would
    be the float zero, and restoring a channel with it raises
    [ZeroDivisionError], while the function returns normally. *)
Theorem white_is_transparent r g b :
  byte_range r -> byte_range g -> byte_range b ->
  min3 r g b = 255 ->
  255 - min3 r g b = 0 /\
  calculate_transparency r g b = Ok (0, 0, 0, 0) /\
  calculate_transparency 255 255 255 = Ok (0, 0, 0, 0) /\
  int_truediv (255 - min3 r g b) 255 = Ok (S754_zero false) /\
  restore_channel r (S754_zero false) = Raise ZeroDivisionError.
Proof.
  intros Hr Hg Hb Hm.
  assert (E : 255 - min3 r g b = 0) by lia.
  assert (r = 255) as -> by (unfold byte_range, min3 in *; lia).
  split; [exact E|]. split; [now apply calculate_transparency_zero|].
  split; [reflexivity|]. rewrite E. split; vm_compute; reflexivity.
Qed.

Lemma white_is_transparent_witness :
  byte_range 255 /\ min3 255 255 255 = 255 /\
  calculate_transparency 255 255 255 = Ok (0, 0, 0, 0).
Proof.
  assert (H255 : byte_range 255) by (unfold byte_range; lia).
  split; [exact H255|]. split; [reflexivity|].
  exact (proj1 (proj2
    (white_is_transparent 255 255 255 H255 H255 H255 eq_refl))).
Defined.

(** C6. For r, g, b in 0..255 with [min(r, g, b) = 0] the function returns
    alpha 255 and the three channels unchanged; (0, 0, 0) gives
    (0, 0, 0, 255). *)
Theorem opaque_passes_through r g b :
  byte_range r -> byte_range g -> byte_range b ->
  min3 r g b = 0 ->
  calculate_transparency r g b = Ok (r, g, b, 255) /\
  calculate_transparency 0 0 0 = Ok (0, 0, 0, 255).
Proof.
  intros Hr Hg Hb Hm. split; [|vm_compute; reflexivity].
  destruct (calculate_transparency_nonzero r g b Hr Hg Hb)
    as (ratio & R & G & B & _ & _ & HR & HG & HB & H); [lia|].
  rewrite Hm in *. change (255 - 0) with 255 in *.
  apply restored_nearest, nearest_opaque in HR, HG, HB.
  now subst R G B.
Qed.

Lemma opaque_passes_through_witness :
  byte_range 200 /\ byte_range 0 /\ byte_range 17 /\ min3 200 0 17 = 0 /\
  calculate_transparency 200 0 17 = Ok (200, 0, 17, 255).
Proof.
  assert (H200 : byte_range 200) by (unfold byte_range; lia).
  assert (H0 : byte_range 0) by (unfold byte_range; lia).
  assert (H17 : byte_range 17) by (unfold byte_range; lia).
  exact (conj H200 (conj H0 (conj H17 (conj eq_refl
    (proj1 (opaque_passes_through 200 0 17 H200 H0 H17 eq_refl)))))).
Defined.

(** C8. On r, g, b in 0..255 the function is total: it returns a
    quadruple and raises nothing.  When alpha is not zero the ratio is a
    nonzero float, so every division by it is defined; when alpha is zero
    the function returns (0, 0, 0, 0).  The function is a pure function of
    its three arguments: it reads and writes no state. *)
Theorem calculate_transparency_total r g b :
  byte_range r -> byte_range g -> byte_range b ->
  (exists p, calculate_transparency r g b = Ok p) /\
  (255 - min3 r g b <> 0 ->
   exists ratio,
     int_truediv (255 - min3 r g b) 255 = Ok ratio /\
     Float.is_zero ratio = false /\
     forall n, float_truediv n ratio = Ok (Float.div n ratio)) /\
  (255 - min3 r g b = 0 -> calculate_transparency r g b = Ok (0, 0, 0, 0)).
Proof.
  intros Hr Hg Hb. split; [|split].
  - destruct (calculate_transparency_returns r g b Hr Hg Hb)
      as (R & G & B & H & _).
    eauto.
  - intros E.
    destruct (calculate_transparency_nonzero r g b Hr Hg Hb E)
      as (ratio & R & G & B & Er & Hz & _).
    exists ratio. repeat split; try assumption.
    intros n. unfold float_truediv. now rewrite Hz.
  - apply calculate_transparency_zero.
Qed.

Lemma calculate_transparency_total_witness :
  byte_range 12 /\ byte_range 250 /\ byte_range 99 /\
  exists p, calculate_transparency 12 250 99 = Ok p.
Proof.
  assert (H12 : byte_range 12) by (unfold byte_range; lia).
  assert (H250 : byte_range 250) by (unfold byte_range; lia).
  assert (H99 : byte_range 99) by (unfold byte_range; lia).
  exact (conj H12 (conj H250 (conj H99
    (proj1 (calculate_transparency_total 12 250 99 H12 H250 H99))))).
Defined.

(** C9. For r, g, b in 0..255 the returned channels R, G, B have minimum
    0: the channel that attains [min(r, g, b)] is restored to 0 and no
    channel is negative; in the zero-alpha case all three are 0. *)
Theorem some_channel_is_zero r g b :
  byte_range r -> byte_range g -> byte_range b ->
  exists R G B A,
    calculate_transparency r g b = Ok (R, G, B, A) /\ min3 R G B = 0.
Proof.
  intros Hr Hg Hb.
  destruct (Z.eq_dec (255 - min3 r g b) 0) as [E|E].
  - exists 0, 0, 0, 0. split; [now apply calculate_transparency_zero|].
    reflexivity.
  - destruct (calculate_transparency_nonzero r g b Hr Hg Hb E)
      as (ratio & R & G & B & _ & _ & HR & HG & HB & H).
    exists R, G, B, (255 - min3 r g b). split; [exact H|].
    apply restored_nearest in HR, HG, HB.
    destruct (min3_range r g b Hr Hg Hb) as (Hm & Hmr & Hmg & Hmb & Hat).
    unfold byte_range in *.
    assert (0 <= R <= 255)
      by (apply (nearest_bounds r (255 - min3 r g b)); [lia|lia|exact HR]).
    assert (0 <= G <= 255)
      by (apply (nearest_bounds g (255 - min3 r g b)); [lia|lia|exact HG]).
    assert (0 <= B <= 255)
      by (apply (nearest_bounds b (255 - min3 r g b)); [lia|lia|exact HB]).
    assert (R = 0 \/ G = 0 \/ B = 0) as Hz.
    { destruct Hat as [Hat|[Hat|Hat]]; [left|right; left|right; right];
        apply (nearest_at_min (255 - min3 r g b)); try lia.
      - replace (255 - (255 - min3 r g b)) with r by lia. exact HR.
      - replace (255 - (255 - min3 r g b)) with g by lia. exact HG.
      - replace (255 - (255 - min3 r g b)) with b by lia. exact HB. }
    unfold min3. lia.
Qed.

Lemma some_channel_is_zero_witness :
  byte_range 40 /\ byte_range 90 /\ byte_range 230 /\
  exists R G B A,
    calculate_transparency 40 90 230 = Ok (R, G, B, A) /\ min3 R G B = 0.
Proof.
  assert (H40 : byte_range 40) by (unfold byte_range; lia).
  assert (H90 : byte_range 90) by (unfold byte_range; lia).
  assert (H230 : byte_range 230) by (unfold byte_range; lia).
  exact (conj H40 (conj H90 (conj H230
    (some_channel_is_zero 40 90 230 H40 H90 H230)))).
Defined.

(** ** Rational arithmetic *)

Lemma composite_normal c a :
  (composite_over_white c a == (c * a + 255 * (255 - a)) # 255)%Q.
Proof.
  unfold composite_over_white, Qeq, Qdiv, Qminus, Qplus, Qmult, Qinv, Qopp,
    inject_Z. cbn. lia.
Qed.

Lemma composite_close v a c :
  1 <= a <= 255 -> nearest_to_exact v a c ->
  within_one (composite_over_white c a) v.
Proof.
  unfold nearest_to_exact, within_one, round_half_up, Qceiling.
  intros Ha Hn.
  rewrite !composite_normal.
  assert (E : 2 * a * c = 2 * (c * a)) by ring. rewrite E in Hn. clear E.
  generalize dependent (c * a). intros n Hn.
  unfold Qfloor, Qopp, Qplus. cbn.
  change (Z.pos (255 * 2)) with 510.
  repeat split; Z.div_mod_to_equations; lia.
Qed.

Lemma recovered_exact_normal v p :
  (recovered_exact v (inject_Z (Z.pos p) / 255) ==
   (255 * (v - 255 + Z.pos p)) # p)%Q.
Proof.
  unfold recovered_exact, Qeq, Qdiv, Qminus, Qplus, Qmult, Qinv, Qopp,
    inject_Z.
  rewrite !Z.mul_1_r. cbn. rewrite !Pos.mul_1_r. lia.
Qed.

Lemma Qtrunc_nonneg q : (0 <= q)%Q -> Qtrunc q = Qfloor q.
Proof.
  unfold Qtrunc, Qle. cbn. intros H.
  destruct (Z.ltb_spec (Qnum q) 0); [lia|reflexivity].
Qed.

Lemma recovered_exact_range v a :
  1 <= a <= 255 -> 255 - a <= v <= 255 ->
  (0 <= recovered_exact v (inject_Z a / 255) <= 255)%Q.
Proof.
  intros Ha Hv. destruct a as [|p|p]; try lia.
  rewrite recovered_exact_normal. unfold Qle. cbn. nia.
Qed.

Lemma restore_channel_exact_range v a :
  1 <= a <= 255 -> 255 - a <= v <= 255 ->
  byte_range (restore_channel_exact v (inject_Z a / 255)).
Proof.
  intros Ha Hv. destruct (recovered_exact_range v a Ha Hv) as [H0 H1].
  unfold restore_channel_exact, byte_range.
  set (x := recovered_exact v (inject_Z a / 255)) in *.
  assert (He0 : (0 <= EPSILON_HALF_exact)%Q) by (vm_compute; discriminate).
  assert (He1 : (EPSILON_HALF_exact <= 1 # 2)%Q) by (vm_compute; discriminate).
  rewrite Qtrunc_nonneg by lra.
  split.
  - change 0 with (Qfloor 0). apply Qfloor_resp_le. lra.
  - change 255 with (Qfloor (511 # 2)). apply Qfloor_resp_le. lra.
Qed.

(** C10. For r, g, b in 0..255 every component of the result lies in
    0..255, although nothing clamps it: so it is for the function as the
    code computes it, and so it is when the recovery formula is evaluated
    in exact rational arithmetic, where the recovered value
    [255 * (v - 255 + alpha) / alpha] itself lies between 0 and 255 because
    each channel is at least the minimum. *)
Theorem output_in_byte_range r g b :
  byte_range r -> byte_range g -> byte_range b ->
  (exists R G B A,
     calculate_transparency r g b = Ok (R, G, B, A) /\
     byte_range R /\ byte_range G /\ byte_range B /\ byte_range A) /\
  (exists R G B A,
     calculate_transparency_exact r g b = (R, G, B, A) /\
     byte_range R /\ byte_range G /\ byte_range B /\ byte_range A) /\
  (255 - min3 r g b <> 0 ->
   let ratio := (inject_Z (255 - min3 r g b) / 255)%Q in
   (0 <= recovered_exact r ratio <= 255)%Q /\
   (0 <= recovered_exact g ratio <= 255)%Q /\
   (0 <= recovered_exact b ratio <= 255)%Q).
Proof.
  intros Hr Hg Hb.
  destruct (min3_range r g b Hr Hg Hb) as (Hm & Hmr & Hmg & Hmb & _).
  assert (Z0 : byte_range 0) by (unfold byte_range; lia).
  destruct (Z.eq_dec (255 - min3 r g b) 0) as [E|E].
  - split; [|split]; [| |contradiction].
    + destruct (calculate_transparency_returns r g b Hr Hg Hb)
        as (R & G & B & H).
      now exists R, G, B, (255 - min3 r g b).
    + exists 0, 0, 0, 0. unfold calculate_transparency_exact. rewrite E.
      now repeat split.
  - assert (Ha : 1 <= 255 - min3 r g b <= 255)
      by (unfold byte_range in *; lia).
    assert (Vr : 255 - (255 - min3 r g b) <= r <= 255)
      by (unfold byte_range in *; lia).
    assert (Vg : 255 - (255 - min3 r g b) <= g <= 255)
      by (unfold byte_range in *; lia).
    assert (Vb : 255 - (255 - min3 r g b) <= b <= 255)
      by (unfold byte_range in *; lia).
    split; [|split].
    + destruct (calculate_transparency_returns r g b Hr Hg Hb)
        as (R & G & B & H).
      now exists R, G, B, (255 - min3 r g b).
    + eexists _, _, _, _. unfold calculate_transparency_exact.
      destruct (Z.eqb_spec (255 - min3 r g b) 0) as [E'|_]; [contradiction|].
      split; [reflexivity|].
      split; [now apply restore_channel_exact_range|].
      split; [now apply restore_channel_exact_range|].
      split; [now apply restore_channel_exact_range|].
      unfold byte_range. lia.
    + intros _. cbv zeta.
      split; [|split]; now apply recovered_exact_range.
Qed.

Lemma output_in_byte_range_witness :
  byte_range 77 /\ byte_range 201 /\ byte_range 133 /\
  exists R G B A,
    calculate_transparency 77 201 133 = Ok (R, G, B, A) /\
    byte_range R /\ byte_range G /\ byte_range B /\ byte_range A.
Proof.
  assert (H77 : byte_range 77) by (unfold byte_range; lia).
  assert (H201 : byte_range 201) by (unfold byte_range; lia).
  assert (H133 : byte_range 133) by (unfold byte_range; lia).
  exact (conj H77 (conj H201 (conj H133
    (proj1 (output_in_byte_range 77 201 133 H77 H201 H133))))).
Defined.

(** C4. For r, g, b in 0..255 with result (R, G, B, A) and A > 0,
    compositing each restored channel over white at opacity A / 255,
    [R * (A / 255) + 255 * (1 - A / 255)], and rounding (down, up or to
    the nearest integer) gives the input channel within plus or minus
    one. *)
Theorem recomposite_within_one r g b R G B A :
  byte_range r -> byte_range g -> byte_range b ->
  calculate_transparency r g b = Ok (R, G, B, A) ->
  A > 0 ->
  within_one (composite_over_white R A) r /\
  within_one (composite_over_white G A) g /\
  within_one (composite_over_white B A) b.
Proof.
  intros Hr Hg Hb H HA.
  destruct (min3_range r g b Hr Hg Hb) as (Hm & _).
  destruct (Z.eq_dec (255 - min3 r g b) 0) as [E|E].
  - rewrite (calculate_transparency_zero r g b E) in H.
    injection H as <- <- <- <-. lia.
  - destruct (calculate_transparency_nonzero r g b Hr Hg Hb E)
      as (ratio & R' & G' & B' & _ & _ & HR & HG & HB & H').
    rewrite H' in H. injection H as <- <- <- <-.
    apply restored_nearest in HR, HG, HB.
    assert (Ha : 1 <= 255 - min3 r g b <= 255)
      by (unfold byte_range in *; lia).
    repeat split; now apply composite_close.
Qed.

Lemma recomposite_within_one_witness :
  byte_range 255 /\ byte_range 128 /\
  calculate_transparency 255 128 128 = Ok (255, 0, 0, 127) /\ 127 > 0 /\
  within_one (composite_over_white 255 127) 255 /\
  within_one (composite_over_white 0 127) 128 /\
  within_one (composite_over_white 0 127) 128.
Proof.
  assert (H255 : byte_range 255) by (unfold byte_range; lia).
  assert (H128 : byte_range 128) by (unfold byte_range; lia).
  assert (E : calculate_transparency 255 128 128 = Ok (255, 0, 0, 127))
    by (vm_compute; reflexivity).
  assert (P : 127 > 0) by lia.
  exact (conj H255 (conj H128 (conj E (conj P
    (recomposite_within_one 255 128 128 255 0 0 127 H255 H128 H128 E P))))).
Defined.

(** ** The image pipeline *)

Lemma clip8_byte z : byte_range z -> clip8 z = z.
Proof. unfold byte_range, clip8. lia. Qed.

Lemma star_apply_rgb px :
  rgb_pixel px ->
  exists r g b R G B A,
    px = [r; g; b] /\
    calculate_transparency r g b = Ok (R, G, B, A) /\
    star_apply calculate_transparency px = Ok (R, G, B, A) /\
    quad_bands (R, G, B, A) = [R; G; B; A].
Proof.
  intros (r & g & b & -> & Hr & Hg & Hb).
  destruct (calculate_transparency_returns r g b Hr Hg Hb)
    as (R & G & B & H & HR & HG & HB & HA).
  exists r, g, b, R, G, B, (255 - min3 r g b).
  repeat split; try assumption.
  cbn. now rewrite !clip8_byte.
Qed.

(** The list comprehension over the RGB pixels: it raises nothing, and
    the i-th quadruple is the function applied to the i-th pixel. *)
Lemma comprehension_spec (data : list (list Z)) :
  Forall rgb_pixel data ->
  exists pixels,
    mapM (star_apply calculate_transparency) data = Ok pixels /\
    Forall2 (fun px p => star_apply calculate_transparency px = Ok p /\
                         quad_bands p = [p.1.1.1; p.1.1.2; p.1.2; p.2])
            data pixels.
Proof.
  induction 1 as [|px data Hpx _ (pixels & Hm & Hf)].
  - exists []. split; [reflexivity|constructor].
  - destruct (star_apply_rgb px Hpx)
      as (r & g & b & R & G & B & A & -> & _ & Hs & Hq).
    exists ((R, G, B, A) :: pixels). split.
    + cbn [mapM]. rewrite Hs. cbn. rewrite Hm. reflexivity.
    + constructor; [|exact Hf]. split; [exact Hs|exact Hq].
Qed.

Lemma transparency_check_spec img :
  transparency_check img = true <-> carries_transparency img.
Proof.
  unfold transparency_check, carries_transparency, has_alpha_channel,
    has_luminance_alpha_channel, has_transparent_palette_index.
  rewrite !orb_true_iff, andb_true_iff, !String.eqb_eq, bool_decide_eq_true.
  tauto.
Qed.

Section PipelineFacts.

Variable convert : Image -> string -> Image.
Variable can_save : string -> bool.

(** Whatever happens after the check, what was printed is the earlier
    output followed by the warning when the check holds. *)
Lemma stdout_after_run input_file output_file w img :
  files w !! input_file = Some img ->
  stdout (convert_image_to_transparent convert can_save
            input_file output_file w).1 =
  stdout w ++ (if transparency_check img then [WARNING] else []).
Proof using Type.
  intros Hin. unfold convert_image_to_transparent, Image_open.
  rewrite Hin.
  set (w1 := if transparency_check img then print WARNING w else w).
  assert (E : stdout w1 =
              stdout w ++ (if transparency_check img then [WARNING] else []))
    by (subst w1; destruct (transparency_check img); cbn;
        [reflexivity|now rewrite app_nil_r]).
  destruct (mapM _ _) as [pixels|e]; [|exact E].
  destruct (putdata _ _) as [out|e]; [|exact E].
  unfold Image_save. destruct (can_save output_file); exact E.
Qed.

(** A run on a decodable input whose RGB conversion has one in-range
    triple per pixel, with an output that can be saved. *)
Lemma run_spec input_file output_file w img :
  files w !! input_file = Some img ->
  can_save output_file = true ->
  length (getdata (convert img "RGB")) = ((size img).1 * (size img).2)%nat ->
  Forall rgb_pixel (getdata (convert img "RGB")) ->
  exists pixels,
    Forall2 (fun px p => star_apply calculate_transparency px = Ok p /\
                         quad_bands p = [p.1.1.1; p.1.1.2; p.1.2; p.2])
            (getdata (convert img "RGB")) pixels /\
    convert_image_to_transparent convert can_save input_file output_file w =
    ({| files :=
          <[output_file :=
              {| mode := "RGBA"; info := ∅; size := size img;
                 getdata := quad_bands <$> pixels |}]> (files w);
        stdout :=
          stdout w ++ (if transparency_check img then [WARNING] else []) |},
     Ok tt).
Proof using Type.
  intros Hin Hsave Hlen Hrgb.
  destruct (comprehension_spec _ Hrgb) as (pixels & Hm & Hf).
  exists pixels. split; [exact Hf|].
  pose proof (Forall2_length _ _ _ Hf) as Hl.
  unfold convert_image_to_transparent, Image_open. rewrite Hin, Hm.
  unfold putdata, Image_new, Image_save. cbn [size mode info getdata].
  destruct (Nat.ltb_spec ((size img).1 * (size img).2) (length pixels))
    as [Hlt|_]; [lia|].
  rewrite Hsave. rewrite drop_ge by (rewrite length_replicate; lia).
  rewrite app_nil_r.
  destruct (transparency_check img); cbn; [reflexivity|].
  now rewrite app_nil_r.
Qed.

End PipelineFacts.

Lemma unblended_of_pixels (rgb : Image) (sz : nat * nat)
    (pixels : list (Z * Z * Z * Z)) :
  size rgb = sz ->
  Forall2 (fun px p => star_apply calculate_transparency px = Ok p /\
                       quad_bands p = [p.1.1.1; p.1.1.2; p.1.2; p.2])
          (getdata rgb) pixels ->
  unblended_image rgb
    {| mode := "RGBA"; info := ∅; size := sz;
       getdata := quad_bands <$> pixels |}.
Proof.
  intros Hsz Hf. unfold unblended_image. cbn [mode size getdata].
  split; [reflexivity|]. split; [now symmetry|].
  split; [rewrite length_fmap; symmetry; exact (Forall2_length _ _ _ Hf)|].
  intros i r g b Hi.
  destruct (Forall2_lookup_l _ _ _ _ _ Hf Hi) as ([[[R G] B] A] & Hp & Hs & Hq).
  exists R, G, B, A. split; [exact Hs|].
  rewrite list_lookup_fmap, Hp. cbn [fmap option_fmap option_map].
  now rewrite Hq.
Qed.

(** C5. For an input image whose RGB conversion has the input's size and
    one 8-bit triple per pixel, the pipeline writes an RGBA image of the
    same width and height whose pixel at every position of the row-major
    sequence is the function applied to the RGB triple at that position,
    and to nothing else. *)
Theorem pipeline_is_pixelwise
    (convert : Image -> string -> Image) (can_save : string -> bool)
    (input_file output_file : string) (w : World) (img : Image) :
  files w !! input_file = Some img ->
  can_save output_file = true ->
  size (convert img "RGB") = size img ->
  length (getdata (convert img "RGB")) = ((size img).1 * (size img).2)%nat ->
  Forall rgb_pixel (getdata (convert img "RGB")) ->
  exists out w',
    convert_image_to_transparent convert can_save input_file output_file w
      = (w', Ok tt) /\
    files w' !! output_file = Some out /\
    size out = size img /\
    unblended_image (convert img "RGB") out.
Proof.
  intros Hin Hsave Hsz Hlen Hrgb.
  destruct (run_spec convert can_save input_file output_file w img
              Hin Hsave Hlen Hrgb) as (pixels & Hf & Hrun).
  eexists _, _. split; [exact Hrun|]. cbn [files].
  split; [apply lookup_insert_eq|]. split; [reflexivity|].
  now apply unblended_of_pixels.
Qed.

Lemma example_rgb_pixels :
  Forall rgb_pixel (getdata (example_convert example_rgb "RGB")).
Proof.
  repeat constructor; eexists _, _, _;
    (split; [reflexivity|unfold byte_range; lia]).
Qed.

Lemma example_paletted_pixels :
  Forall rgb_pixel (getdata (example_convert example_paletted "RGB")).
Proof.
  repeat constructor; eexists _, _, _;
    (split; [reflexivity|unfold byte_range; lia]).
Qed.

Lemma pipeline_is_pixelwise_witness :
  files (example_world example_rgb) !! "in.png" = Some example_rgb /\
  exists out w',
    convert_image_to_transparent example_convert (fun _ => true)
      "in.png" "out.png" (example_world example_rgb) = (w', Ok tt) /\
    files w' !! "out.png" = Some out /\
    size out = size example_rgb /\
    unblended_image (example_convert example_rgb "RGB") out.
Proof.
  assert (Hin : files (example_world example_rgb) !! "in.png"
                = Some example_rgb) by apply lookup_singleton_eq.
  exact (conj Hin
    (pipeline_is_pixelwise example_convert (fun _ => true)
       "in.png" "out.png" (example_world example_rgb) example_rgb
       Hin eq_refl eq_refl eq_refl example_rgb_pixels)).
Defined.

(** C7. The pipeline prints the transparency warning if and only if the
    decoded input carries transparency information: an alpha channel (mode
    RGBA), a luminance-alpha channel (mode LA), or a palette with a
    designated transparent index (mode P with a transparency entry in its
    info).  The warning is not fatal: in that case too the pipeline goes on
    and writes the RGBA image computed from the RGB conversion alone. *)
Theorem warning_iff_transparency
    (convert : Image -> string -> Image) (can_save : string -> bool)
    (input_file output_file : string) (w : World) (img : Image) :
  files w !! input_file = Some img ->
  let run :=
    convert_image_to_transparent convert can_save input_file output_file w in
  (stdout run.1 = stdout w ++ [WARNING] <-> carries_transparency img) /\
  (~ carries_transparency img -> stdout run.1 = stdout w) /\
  (carries_transparency img ->
   can_save output_file = true ->
   size (convert img "RGB") = size img ->
   length (getdata (convert img "RGB")) = ((size img).1 * (size img).2)%nat ->
   Forall rgb_pixel (getdata (convert img "RGB")) ->
   exists out,
     run.2 = Ok tt /\
     files run.1 !! output_file = Some out /\
     unblended_image (convert img "RGB") out).
Proof.
  intros Hin run.
  pose proof (stdout_after_run convert can_save input_file output_file w img
                Hin) as Hout.
  fold run in Hout.
  pose proof (transparency_check_spec img) as Hc.
  destruct (transparency_check img) eqn:Ec.
  - assert (Ht : carries_transparency img) by now apply Hc.
    split; [tauto|]. split; [tauto|].
    intros _ Hsave Hsz Hlen Hrgb.
    destruct (run_spec convert can_save input_file output_file w img
                Hin Hsave Hlen Hrgb) as (pixels & Hf & Hrun).
    subst run. rewrite Hrun. cbn [fst snd files].
    eexists. split; [reflexivity|]. split; [apply lookup_insert_eq|].
    now apply unblended_of_pixels.
  - assert (Ht : ~ carries_transparency img)
      by (intros Ht; apply Hc in Ht; discriminate).
    rewrite app_nil_r in Hout.
    split; [|split; [tauto|tauto]].
    split; [|tauto]. intros E. rewrite Hout in E.
    apply (f_equal length) in E. rewrite length_app in E. cbn in E. lia.
Qed.

Lemma warning_iff_transparency_witness :
  files (example_world example_paletted) !! "in.png"
    = Some example_paletted /\
  carries_transparency example_paletted /\
  let run :=
    convert_image_to_transparent example_convert (fun _ => true)
      "in.png" "out.png" (example_world example_paletted) in
  stdout run.1 = [WARNING] /\
  exists out,
    run.2 = Ok tt /\
    files run.1 !! "out.png" = Some out /\
    unblended_image (example_convert example_paletted "RGB") out.
Proof.
  assert (Hin : files (example_world example_paletted) !! "in.png"
                = Some example_paletted) by apply lookup_singleton_eq.
  assert (Ht : carries_transparency example_paletted).
  { right. right. split; [reflexivity|].
    exists 0. apply lookup_singleton_eq. }
  pose proof (warning_iff_transparency example_convert (fun _ => true)
                "in.png" "out.png" (example_world example_paletted)
                example_paletted Hin) as H.
  cbv zeta in H. destruct H as (Hw & _ & Hrun).
  refine (conj Hin (conj Ht (conj _ _))).
  - exact (proj2 Hw Ht).
  - exact (Hrun Ht eq_refl eq_refl eq_refl example_paletted_pixels).
Defined.

(** ** A remark on halves *)

(** The rounding is half-up on the float quotient.  Against the exact
    quotient a half can fall either way, because the float quotient may be
    just below it: for (130, 5, 5) the exact value of the red channel is
    127.5 and the function returns 127, for (254, 253, 253) it is 127.5
    again and the function returns 128.  Both are nearest integers. *)
Example halves_of_the_exact_quotient :
  calculate_transparency 130 5 5 = Ok (127, 0, 0, 250) /\
  calculate_transparency 254 253 253 = Ok (128, 0, 0, 2) /\
  (recovered_exact 130 (inject_Z 250 / 255) == 255 # 2)%Q /\
  (recovered_exact 254 (inject_Z 2 / 255) == 255 # 2)%Q.
Proof. repeat split; vm_compute; reflexivity. Qed.

(** * Further properties of the unblend function *)

(** The two ways the function returns on 8-bit inputs. *)
Lemma unblend_cases r g b :
  byte_range r -> byte_range g -> byte_range b ->
  (255 - min3 r g b = 0 /\
   calculate_transparency r g b = Ok (0, 0, 0, 0)) \/
  (1 <= 255 - min3 r g b <= 255 /\
   exists ratio R G B,
     restore_channel r ratio = Ok R /\
     restore_channel g ratio = Ok G /\
     restore_channel b ratio = Ok B /\
     nearest_to_exact r (255 - min3 r g b) R /\
     nearest_to_exact g (255 - min3 r g b) G /\
     nearest_to_exact b (255 - min3 r g b) B /\
     calculate_transparency r g b = Ok (R, G, B, 255 - min3 r g b)).
Proof.
  intros Hr Hg Hb.
  destruct (min3_range r g b Hr Hg Hb) as (Hm & _).
  destruct (Z.eq_dec (255 - min3 r g b) 0) as [E|E].
  - left. split; [exact E|now apply calculate_transparency_zero].
  - right. split; [unfold byte_range in Hm; lia|].
    destruct (calculate_transparency_nonzero r g b Hr Hg Hb E)
      as (ratio & R & G & B & _ & _ & HR & HG & HB & H).
    exists ratio, R, G, B.
    repeat split;
      solve [ eapply restored_channel; eassumption
            | eapply restored_nearest; eassumption
            | exact H ].
Qed.

Lemma nearest_saturated alpha c :
  1 <= alpha <= 255 -> nearest_to_exact 255 alpha c -> c = 255.
Proof. unfold nearest_to_exact. intros Ha Hn. nia. Qed.

Lemma nearest_mono alpha v1 v2 c1 c2 :
  1 <= alpha <= 255 -> v1 < v2 ->
  nearest_to_exact v1 alpha c1 -> nearest_to_exact v2 alpha c2 -> c1 <= c2.
Proof. unfold nearest_to_exact. intros Ha Hv H1 H2. nia. Qed.

Lemma restore_mono alpha ratio v1 v2 c1 c2 :
  1 <= alpha <= 255 -> v1 <= v2 ->
  restore_channel v1 ratio = Ok c1 -> restore_channel v2 ratio = Ok c2 ->
  nearest_to_exact v1 alpha c1 -> nearest_to_exact v2 alpha c2 -> c1 <= c2.
Proof.
  intros Ha Hv E1 E2 H1 H2.
  destruct (Z.eq_dec v1 v2) as [->|Hne].
  - rewrite E1 in E2. injection E2 as ->. lia.
  - apply (nearest_mono alpha v1 v2); [exact Ha|lia|exact H1|exact H2].
Qed.

(** X1. On 8-bit inputs the returned alpha is 0 exactly for pure white:
    no other pixel becomes fully transparent. *)
Theorem only_white_is_fully_transparent r g b R G B A :
  byte_range r -> byte_range g -> byte_range b ->
  calculate_transparency r g b = Ok (R, G, B, A) ->
  (A = 0 <-> r = 255 /\ g = 255 /\ b = 255).
Proof.
  intros Hr Hg Hb H.
  destruct (unblend_cases r g b Hr Hg Hb)
    as [(E & H0)|(Ha & ratio & R' & G' & B' & _ & _ & _ & _ & _ & _ & H')].
  - rewrite H0 in H. injection H as <- <- <- <-.
    unfold byte_range, min3 in *. lia.
  - rewrite H' in H. injection H as <- <- <- <-.
    unfold byte_range, min3 in *. lia.
Qed.

Lemma only_white_is_fully_transparent_witness :
  byte_range 255 /\ byte_range 254 /\
  calculate_transparency 255 255 254 = Ok (255, 255, 0, 1) /\
  (1 = 0 <-> 255 = 255 /\ 255 = 255 /\ 254 = 255).
Proof.
  assert (H255 : byte_range 255) by (unfold byte_range; lia).
  assert (H254 : byte_range 254) by (unfold byte_range; lia).
  assert (E : calculate_transparency 255 255 254 = Ok (255, 255, 0, 1))
    by (vm_compute; reflexivity).
  exact (conj H255 (conj H254 (conj E
    (only_white_is_fully_transparent 255 255 254 255 255 0 1
       H255 H255 H254 E)))).
Defined.

(** X2. A gray pixel (v, v, v) with v in 0..255 becomes black with alpha
    [255 - v]. *)
Theorem gray_becomes_black v :
  byte_range v -> calculate_transparency v v v = Ok (0, 0, 0, 255 - v).
Proof.
  intros Hv.
  assert (Em : min3 v v v = v) by (unfold min3; lia).
  destruct (unblend_cases v v v Hv Hv Hv)
    as [(E & H0)|(Ha & ratio & R & G & B & _ & _ & _ & HR & HG & HB & H)].
  - rewrite H0. rewrite Em in E. now replace (255 - v) with 0 by lia.
  - rewrite Em in *. rewrite H.
    assert (Z : forall c, nearest_to_exact v (255 - v) c -> c = 0).
    { intros c Hc. apply (nearest_at_min (255 - v)); [exact Ha|].
      now replace (255 - (255 - v)) with v by lia. }
    now rewrite (Z R HR), (Z G HG), (Z B HB).
Qed.

Lemma gray_becomes_black_witness :
  byte_range 100 /\ calculate_transparency 100 100 100 = Ok (0, 0, 0, 155).
Proof.
  assert (H100 : byte_range 100) by (unfold byte_range; lia).
  exact (conj H100 (gray_becomes_black 100 H100)).
Defined.

(** X3. On 8-bit inputs other than pure white, a channel at 255 comes back
    as 255. *)
Theorem saturated_channel_stays_saturated r g b R G B A :
  byte_range r -> byte_range g -> byte_range b ->
  calculate_transparency r g b = Ok (R, G, B, A) ->
  A <> 0 ->
  (r = 255 -> R = 255) /\ (g = 255 -> G = 255) /\ (b = 255 -> B = 255).
Proof.
  intros Hr Hg Hb H HA.
  destruct (unblend_cases r g b Hr Hg Hb)
    as [(E & H0)|(Ha & ratio & R' & G' & B' & _ & _ & _ & HR & HG & HB & H')].
  - rewrite H0 in H. injection H as <- <- <- <-. contradiction.
  - rewrite H' in H. injection H as <- <- <- <-.
    repeat split; intros ->; eapply nearest_saturated; eassumption.
Qed.

Lemma saturated_channel_stays_saturated_witness :
  byte_range 255 /\ byte_range 128 /\
  calculate_transparency 255 128 128 = Ok (255, 0, 0, 127) /\ 127 <> 0 /\
  (255 = 255 -> 255 = 255) /\ (128 = 255 -> 0 = 255) /\ (128 = 255 -> 0 = 255).
Proof.
  assert (H255 : byte_range 255) by (unfold byte_range; lia).
  assert (H128 : byte_range 128) by (unfold byte_range; lia).
  assert (E : calculate_transparency 255 128 128 = Ok (255, 0, 0, 127))
    by (vm_compute; reflexivity).
  assert (P : 127 <> 0) by lia.
  exact (conj H255 (conj H128 (conj E (conj P
    (saturated_channel_stays_saturated 255 128 128 255 0 0 127
       H255 H128 H128 E P))))).
Defined.

(** X4. On 8-bit inputs the order of the channels is kept: a channel that
    is not above another in the input is not above it in the result. *)
Theorem channel_order_is_kept r g b R G B A :
  byte_range r -> byte_range g -> byte_range b ->
  calculate_transparency r g b = Ok (R, G, B, A) ->
  (r <= g -> R <= G) /\ (g <= r -> G <= R) /\
  (g <= b -> G <= B) /\ (b <= g -> B <= G) /\
  (r <= b -> R <= B) /\ (b <= r -> B <= R).
Proof.
  intros Hr Hg Hb H.
  destruct (unblend_cases r g b Hr Hg Hb)
    as [(E & H0)|(Ha & ratio & R' & G' & B' & ER & EG & EB & HR & HG & HB & H')].
  - rewrite H0 in H. injection H as <- <- <- <-. lia.
  - rewrite H' in H. injection H as <- <- <- <-.
    repeat split; intros Hle;
      eapply (restore_mono (255 - min3 r g b) ratio); eassumption.
Qed.

Lemma channel_order_is_kept_witness :
  byte_range 40 /\ byte_range 90 /\ byte_range 230 /\
  calculate_transparency 40 90 230 = Ok (0, 59, 225, 215) /\
  (40 <= 90 -> 0 <= 59) /\ (90 <= 230 -> 59 <= 225).
Proof.
  assert (H40 : byte_range 40) by (unfold byte_range; lia).
  assert (H90 : byte_range 90) by (unfold byte_range; lia).
  assert (H230 : byte_range 230) by (unfold byte_range; lia).
  assert (E : calculate_transparency 40 90 230 = Ok (0, 59, 225, 215))
    by (vm_compute; reflexivity).
  pose proof (channel_order_is_kept 40 90 230 0 59 225 215 H40 H90 H230 E)
    as (P1 & _ & P2 & _).
  exact (conj H40 (conj H90 (conj H230 (conj E (conj P1 P2))))).
Defined.

(** X5. The function treats the three channels alike: for any integers,
    if it returns for (r, g, b) it returns for the same values in another
    order, with the channels of the result in that order and the same
    alpha. *)
Theorem channels_are_treated_alike (r g b R G B A : Z) :
  calculate_transparency r g b = Ok (R, G, B, A) ->
  calculate_transparency g r b = Ok (G, R, B, A) /\
  calculate_transparency r b g = Ok (R, B, G, A) /\
  calculate_transparency b g r = Ok (B, G, R, A).
Proof.
  unfold calculate_transparency.
  replace (min3 g r b) with (min3 r g b) by (unfold min3; lia).
  replace (min3 r b g) with (min3 r g b) by (unfold min3; lia).
  replace (min3 b g r) with (min3 r g b) by (unfold min3; lia).
  destruct (255 - min3 r g b =? 0).
  - intros [= <- <- <- <-]. now repeat split.
  - destruct (int_truediv (255 - min3 r g b) 255) as [ratio|e];
      [|discriminate].
    cbn.
    destruct (restore_channel r ratio) as [R'|e]; [|discriminate]. cbn.
    destruct (restore_channel g ratio) as [G'|e]; [|discriminate]. cbn.
    destruct (restore_channel b ratio) as [B'|e]; [|discriminate]. cbn.
    intros [= <- <- <- <-]. now repeat split.
Qed.

Lemma channels_are_treated_alike_witness :
  calculate_transparency 40 90 230 = Ok (0, 59, 225, 215) /\
  calculate_transparency 90 40 230 = Ok (59, 0, 225, 215) /\
  calculate_transparency 40 230 90 = Ok (0, 225, 59, 215) /\
  calculate_transparency 230 90 40 = Ok (225, 59, 0, 215).
Proof.
  assert (E : calculate_transparency 40 90 230 = Ok (0, 59, 225, 215))
    by (vm_compute; reflexivity).
  exact (conj E (channels_are_treated_alike 40 90 230 0 59 225 215 E)).
Defined.

(** X6. Applying the function to the colour it returned changes nothing:
    for 8-bit inputs with result (R, G, B, A), the result for (R, G, B) is
    (R, G, B, 255). *)
Theorem second_application_is_opaque r g b R G B A :
  byte_range r -> byte_range g -> byte_range b ->
  calculate_transparency r g b = Ok (R, G, B, A) ->
  calculate_transparency R G B = Ok (R, G, B, 255).
Proof.
  intros Hr Hg Hb H.
  assert (HRGB : byte_range R /\ byte_range G /\ byte_range B /\
                 min3 R G B = 0).
  { destruct (min3_range r g b Hr Hg Hb) as (Hm & Hmr & Hmg & Hmb & Hat).
    destruct (unblend_cases r g b Hr Hg Hb)
      as [(E & H0)|(Ha & ratio & R' & G' & B' & _ & _ & _ & HR & HG & HB & H')].
    - rewrite H0 in H. injection H as <- <- <- <-.
      unfold byte_range, min3. lia.
    - rewrite H' in H. injection H as <- <- <- <-.
      unfold byte_range in Hr, Hg, Hb, Hm.
      assert (0 <= R' <= 255)
        by (apply (nearest_bounds r (255 - min3 r g b)); [lia|lia|exact HR]).
      assert (0 <= G' <= 255)
        by (apply (nearest_bounds g (255 - min3 r g b)); [lia|lia|exact HG]).
      assert (0 <= B' <= 255)
        by (apply (nearest_bounds b (255 - min3 r g b)); [lia|lia|exact HB]).
      assert (R' = 0 \/ G' = 0 \/ B' = 0) as Hz.
      { destruct Hat as [Hat|[Hat|Hat]]; [left|right; left|right; right];
          apply (nearest_at_min (255 - min3 r g b)); try lia.
        - replace (255 - (255 - min3 r g b)) with r by lia. exact HR.
        - replace (255 - (255 - min3 r g b)) with g by lia. exact HG.
        - replace (255 - (255 - min3 r g b)) with b by lia. exact HB. }
      unfold byte_range, min3. lia. }
  destruct HRGB as (HR & HG & HB & Hm).
  destruct (unblend_cases R G B HR HG HB)
    as [(E & _)|(_ & ratio & R' & G' & B' & _ & _ & _ & NR & NG & NB & H')].
  - lia.
  - rewrite Hm in *. change (255 - 0) with 255 in *.
    apply nearest_opaque in NR, NG, NB. now subst R' G' B'.
Qed.

Lemma second_application_is_opaque_witness :
  byte_range 40 /\ byte_range 90 /\ byte_range 230 /\
  calculate_transparency 40 90 230 = Ok (0, 59, 225, 215) /\
  calculate_transparency 0 59 225 = Ok (0, 59, 225, 255).
Proof.
  assert (H40 : byte_range 40) by (unfold byte_range; lia).
  assert (H90 : byte_range 90) by (unfold byte_range; lia).
  assert (H230 : byte_range 230) by (unfold byte_range; lia).
  assert (E : calculate_transparency 40 90 230 = Ok (0, 59, 225, 215))
    by (vm_compute; reflexivity).
  exact (conj H40 (conj H90 (conj H230 (conj E
    (second_application_is_opaque 40 90 230 0 59 225 215
       H40 H90 H230 E))))).
Defined.

(** ** The rounding step on exact halves *)

Lemma halves_checked :
  forallb (fun k =>
             match int_of_float (Float.add (float_half_above k) EPSILON_HALF)
             with
             | Ok c => (c =? (if k <? 2 then k else k + 1)) &&
                       Qeq_bool (Float.to_Q (float_half_above k))
                                (inject_Z k + (1 # 2))
             | Raise _ => false
             end)
          (upto 255) = true.
Proof. vm_compute. reflexivity. Qed.

(** X7. The rounding step [int(q + EPSILON_HALF)] on a float that is
    exactly [k + 0.5], for k in 0..254: the half goes down for k = 0 and
    k = 1 and up for every larger k. *)
Theorem rounding_step_on_halves k :
  0 <= k <= 254 ->
  (Float.to_Q (float_half_above k) == inject_Z k + (1 # 2))%Q /\
  int_of_float (Float.add (float_half_above k) EPSILON_HALF)
    = Ok (if k <? 2 then k else k + 1).
Proof.
  intros Hk.
  assert (Ik : In k (upto 255)) by (apply elem_upto; lia).
  pose proof (proj1 (forallb_forall _ _) halves_checked k Ik) as H.
  cbv beta in H.
  destruct (int_of_float (Float.add (float_half_above k) EPSILON_HALF))
    as [c|]; [|discriminate].
  apply andb_true_iff in H. destruct H as [H1 H2].
  split; [now apply Qeq_bool_iff|].
  f_equal. now apply Z.eqb_eq.
Qed.

Lemma rounding_step_on_halves_witness :
  0 <= 127 <= 254 /\
  int_of_float (Float.add (float_half_above 127) EPSILON_HALF) = Ok 128.
Proof.
  assert (H : 0 <= 127 <= 254) by lia.
  exact (conj H (proj2 (rounding_step_on_halves 127 H))).
Defined.

(** ** The float computation against exact arithmetic *)

Lemma nearest_strict v alpha c :
  1 <= alpha ->
  nearest_to_exact v alpha c -> ~ exact_tie v alpha ->
  Z.abs (2 * alpha * c - 510 * (v - 255 + alpha)) < alpha.
Proof.
  unfold nearest_to_exact, exact_tie. intros Ha Hn Ht.
  destruct (Z.eq_dec (Z.abs (2 * alpha * c - 510 * (v - 255 + alpha))) alpha)
    as [E|E]; [|lia].
  exfalso. apply Ht. split; [lia|].
  destruct (Z.abs_eq_or_opp (2 * alpha * c - 510 * (v - 255 + alpha)))
    as [E'|E']; rewrite E' in E; symmetry.
  - apply (Z.mod_unique_pos _ _ (c - 1)); lia.
  - apply (Z.mod_unique_pos _ _ c); lia.
Qed.

Lemma restore_channel_exact_nearest v a c :
  1 <= a <= 255 -> 255 - a <= v <= 255 ->
  Z.abs (2 * a * c - 510 * (v - 255 + a)) < a ->
  restore_channel_exact v (inject_Z a / 255) = c.
Proof.
  intros Ha Hv Hn.
  destruct (recovered_exact_range v a Ha Hv) as [H0 _].
  unfold restore_channel_exact.
  assert (He0 : (0 <= EPSILON_HALF_exact)%Q) by (vm_compute; discriminate).
  rewrite Qtrunc_nonneg by lra.
  destruct a as [|p|p]; try lia.
  rewrite recovered_exact_normal.
  unfold Qfloor, Qplus, EPSILON_HALF_exact, Qminus, Qopp. cbn.
  apply Z.le_antisymm.
  - apply Z.lt_succ_r, Z.div_lt_upper_bound; [lia|]. nia.
  - apply Z.div_le_lower_bound; [lia|]. nia.
Qed.

(** X8. Floating point changes nothing except on exact halves: for 8-bit
    inputs where no channel's exact quotient is an integer plus one half,
    the function returns what the same formula gives in exact rational
    arithmetic. *)
Theorem float_result_is_exact_off_halves r g b :
  byte_range r -> byte_range g -> byte_range b ->
  ~ exact_tie r (255 - min3 r g b) ->
  ~ exact_tie g (255 - min3 r g b) ->
  ~ exact_tie b (255 - min3 r g b) ->
  calculate_transparency r g b = Ok (calculate_transparency_exact r g b).
Proof.
  intros Hr Hg Hb Tr Tg Tb.
  destruct (min3_range r g b Hr Hg Hb) as (Hm & Hmr & Hmg & Hmb & _).
  destruct (unblend_cases r g b Hr Hg Hb)
    as [(E & H0)|(Ha & ratio & R & G & B & _ & _ & _ & HR & HG & HB & H)].
  - rewrite H0. unfold calculate_transparency_exact. now rewrite E.
  - rewrite H. unfold calculate_transparency_exact.
    destruct (Z.eqb_spec (255 - min3 r g b) 0) as [E|_]; [lia|].
    unfold byte_range in *.
    rewrite (restore_channel_exact_nearest r _ R Ha); [|lia|].
    rewrite (restore_channel_exact_nearest g _ G Ha); [|lia|].
    rewrite (restore_channel_exact_nearest b _ B Ha); [|lia|].
    + reflexivity.
    + apply nearest_strict; [lia|exact HB|exact Tb].
    + apply nearest_strict; [lia|exact HG|exact Tg].
    + apply nearest_strict; [lia|exact HR|exact Tr].
Qed.

Lemma not_tie_example :
  ~ exact_tie 255 127 /\ ~ exact_tie 128 127.
Proof. split; intros [_ H]; vm_compute in H; discriminate. Qed.

Lemma float_result_is_exact_off_halves_witness :
  byte_range 255 /\ byte_range 128 /\
  ~ exact_tie 255 (255 - min3 255 128 128) /\
  ~ exact_tie 128 (255 - min3 255 128 128) /\
  calculate_transparency 255 128 128 =
    Ok (calculate_transparency_exact 255 128 128).
Proof.
  assert (H255 : byte_range 255) by (unfold byte_range; lia).
  assert (H128 : byte_range 128) by (unfold byte_range; lia).
  destruct not_tie_example as [T1 T2].
  exact (conj H255 (conj H128 (conj T1 (conj T2
    (float_result_is_exact_off_halves 255 128 128 H255 H128 H128
       T1 T2 T2))))).
Defined.

(** ** Rounding of the exact recovered value *)







(** * Further properties of the pipeline *)

(** Every run of the model, whatever the input: at most the warning is
    printed, and either an exception comes out with the files as they were
    (a failing save is modelled as one that could not open its path), or
    the run ended normally and the output path alone was written. *)
Lemma run_outcomes
    (convert : Image -> string -> Image) (can_save : string -> bool)
    (input_file output_file : string) (w : World) :
  let run :=
    convert_image_to_transparent convert can_save input_file output_file w in
  exists l,
    (l = [] \/ l = [WARNING]) /\
    stdout run.1 = stdout w ++ l /\
    ((exists e, run.2 = Raise e /\ files run.1 = files w) \/
     (exists out, run.2 = Ok tt /\
                  files run.1 = <[output_file := out]> (files w))).
Proof.
  unfold convert_image_to_transparent, Image_open.
  destruct (files w !! input_file) as [img|].
  2: { exists []. cbn. split; [now left|]. split; [now rewrite app_nil_r|].
       left. now exists FileNotFoundError. }
  exists (if transparency_check img then [WARNING] else []).
  split; [destruct (transparency_check img); auto|].
  set (w1 := if transparency_check img then print WARNING w else w).
  assert (E : stdout w1 =
              stdout w ++ (if transparency_check img then [WARNING] else []))
    by (subst w1; destruct (transparency_check img); cbn;
        [reflexivity|now rewrite app_nil_r]).
  assert (F : files w1 = files w)
    by (subst w1; now destruct (transparency_check img)).
  destruct (mapM _ _) as [pixels|e];
    [|cbn; split; [exact E|left; now exists e]].
  destruct (putdata _ _) as [out|e];
    [|cbn; split; [exact E|left; now exists e]].
  unfold Image_save. destruct (can_save output_file); cbn.
  - split; [exact E|]. right. exists out. now rewrite F.
  - split; [exact E|]. left. now exists PermissionError.
Qed.

(** X9. A run that raises although the output could be saved failed
    while reading or unblending, and wrote nothing: the files are what they
    were. *)
Theorem failure_before_save_writes_nothing
    (convert : Image -> string -> Image) (can_save : string -> bool)
    (input_file output_file : string) (w : World) (e : exn) :
  can_save output_file = true ->
  (convert_image_to_transparent convert can_save
     input_file output_file w).2 = Raise e ->
  files (convert_image_to_transparent convert can_save
           input_file output_file w).1 = files w.
Proof.
  intros _ He.
  destruct (run_outcomes convert can_save input_file output_file w)
    as (l & _ & _ & [(e' & _ & F)|(out & Hok & _)]).
  - exact F.
  - rewrite Hok in He. discriminate.
Qed.

Lemma failure_before_save_writes_nothing_witness :
  (convert_image_to_transparent example_convert (fun _ => true)
     "other.png" "out.png" (example_world example_rgb)).2
    = Raise FileNotFoundError /\
  files (convert_image_to_transparent example_convert (fun _ => true)
           "other.png" "out.png" (example_world example_rgb)).1
    = files (example_world example_rgb).
Proof.
  assert (E : (convert_image_to_transparent example_convert (fun _ => true)
                 "other.png" "out.png" (example_world example_rgb)).2
              = Raise FileNotFoundError) by (vm_compute; reflexivity).
  exact (conj E
    (failure_before_save_writes_nothing example_convert (fun _ => true)
       "other.png" "out.png" (example_world example_rgb) FileNotFoundError
       eq_refl E)).
Defined.

(** X10. A run touches no file but the output path: every other path
    holds after the run what it held before, whether the run succeeded or
    not. *)
Theorem run_touches_only_the_output
    (convert : Image -> string -> Image) (can_save : string -> bool)
    (input_file output_file path : string) (w : World) :
  path <> output_file ->
  files (convert_image_to_transparent convert can_save
           input_file output_file w).1 !! path = files w !! path.
Proof.
  intros Hne.
  destruct (run_outcomes convert can_save input_file output_file w)
    as (l & _ & _ & [(e' & _ & F)|(out & _ & F)]); rewrite F.
  - reflexivity.
  - now apply lookup_insert_ne.
Qed.

Lemma run_touches_only_the_output_witness :
  "in.png" <> "out.png" /\
  files (convert_image_to_transparent example_convert (fun _ => true)
           "in.png" "out.png" (example_world example_rgb)).1 !! "in.png"
    = files (example_world example_rgb) !! "in.png".
Proof.
  assert (Hne : "in.png" <> "out.png") by discriminate.
  exact (conj Hne
    (run_touches_only_the_output example_convert (fun _ => true)
       "in.png" "out.png" "in.png" (example_world example_rgb) Hne)).
Defined.

(** The written pixels as a function of the RGB pixels, when the bands of
    each result are known. *)
Lemma written_pixels (g : list Z -> list Z)
    (data : list (list Z)) (pixels : list (Z * Z * Z * Z)) :
  Forall2 (fun px p => star_apply calculate_transparency px = Ok p /\
                       quad_bands p = [p.1.1.1; p.1.1.2; p.1.2; p.2])
          data pixels ->
  Forall (fun px => forall p, star_apply calculate_transparency px = Ok p ->
                              quad_bands p = g px) data ->
  quad_bands <$> pixels = g <$> data.
Proof.
  induction 1 as [|px p data pixels [Hs _] _ IH]; intros Hg.
  - reflexivity.
  - apply Forall_cons in Hg. destruct Hg as [Hpx Hg].
    cbn. now rewrite (Hpx p Hs), (IH Hg).
Qed.

Lemma fmap_const_replicate {A B : Type} (c : B) (l : list A) :
  (fun _ => c) <$> l = replicate (length l) c.
Proof. induction l as [|x l IH]; [reflexivity|]. cbn. now rewrite IH. Qed.

Lemma opaque_bands r g b p :
  byte_range r -> byte_range g -> byte_range b -> min3 r g b = 0 ->
  calculate_transparency r g b = Ok p -> quad_bands p = [r; g; b; 255].
Proof.
  intros Hr Hg Hb Hm H.
  destruct (unblend_cases r g b Hr Hg Hb)
    as [(E & _)|(_ & ratio & R & G & B & _ & _ & _ & NR & NG & NB & H')];
    [lia|].
  rewrite H' in H. injection H as <-.
  rewrite Hm in *. change (255 - 0) with 255 in *.
  apply nearest_opaque in NR, NG, NB. subst R G B.
  cbn. rewrite !clip8_byte; [reflexivity|unfold byte_range; lia|..];
    assumption.
Qed.

(** X13. A well-formed input whose RGB pixels are all pure white is
    written as the empty RGBA image of its size: every pixel (0, 0, 0, 0),
    the image [Image.new] starts from. *)
Theorem white_image_becomes_empty
    (convert : Image -> string -> Image) (can_save : string -> bool)
    (input_file output_file : string) (w : World) (img : Image) :
  files w !! input_file = Some img ->
  can_save output_file = true ->
  length (getdata (convert img "RGB")) = ((size img).1 * (size img).2)%nat ->
  Forall (fun px => px = [255; 255; 255]) (getdata (convert img "RGB")) ->
  let run :=
    convert_image_to_transparent convert can_save input_file output_file w in
  run.2 = Ok tt /\
  files run.1 !! output_file = Some (Image_new "RGBA" (size img)).
Proof.
  intros Hin Hsave Hlen Hwhite run.
  assert (Hrgb : Forall rgb_pixel (getdata (convert img "RGB"))).
  { eapply Forall_impl; [exact Hwhite|].
    intros px ->. exists 255, 255, 255. unfold byte_range. repeat split; lia. }
  destruct (run_spec convert can_save input_file output_file w img
              Hin Hsave Hlen Hrgb) as (pixels & Hf & Hrun).
  subst run. rewrite Hrun. cbn [fst snd files].
  split; [reflexivity|]. rewrite lookup_insert_eq. f_equal.
  unfold Image_new. f_equal.
  rewrite (written_pixels (fun _ => [0; 0; 0; 0]) _ _ Hf).
  - now rewrite fmap_const_replicate, Hlen.
  - eapply Forall_impl; [exact Hwhite|].
    intros px -> p Hp. cbn in Hp. now injection Hp as <-.
Qed.

Lemma white_image_becomes_empty_witness :
  files (example_world example_white) !! "in.png" = Some example_white /\
  files (convert_image_to_transparent example_convert (fun _ => true)
           "in.png" "out.png" (example_world example_white)).1 !! "out.png"
    = Some (Image_new "RGBA" (1, 2)%nat).
Proof.
  assert (Hin : files (example_world example_white) !! "in.png"
                = Some example_white) by apply lookup_singleton_eq.
  assert (Hw : Forall (fun px => px = [255; 255; 255])
                      (getdata (example_convert example_white "RGB")))
    by (repeat constructor).
  exact (conj Hin (proj2
    (white_image_becomes_empty example_convert (fun _ => true)
       "in.png" "out.png" (example_world example_white) example_white
       Hin eq_refl eq_refl Hw))).
Defined.

(** X14. A well-formed input in which every RGB pixel has a channel at 0
    is written unchanged and fully opaque: every pixel is the RGB triple
    with alpha 255. *)
Theorem opaque_image_is_kept
    (convert : Image -> string -> Image) (can_save : string -> bool)
    (input_file output_file : string) (w : World) (img : Image) :
  files w !! input_file = Some img ->
  can_save output_file = true ->
  length (getdata (convert img "RGB")) = ((size img).1 * (size img).2)%nat ->
  Forall (fun px => exists r g b,
            px = [r; g; b] /\ byte_range r /\ byte_range g /\ byte_range b /\
            min3 r g b = 0)
         (getdata (convert img "RGB")) ->
  exists out,
    (convert_image_to_transparent convert can_save
       input_file output_file w).2 = Ok tt /\
    files (convert_image_to_transparent convert can_save
             input_file output_file w).1 !! output_file = Some out /\
    getdata out = with_alpha_255 <$> getdata (convert img "RGB").
Proof.
  intros Hin Hsave Hlen Hop.
  assert (Hrgb : Forall rgb_pixel (getdata (convert img "RGB"))).
  { eapply Forall_impl; [exact Hop|].
    intros px (r & g & b & -> & Hr & Hg & Hb & _). now exists r, g, b. }
  destruct (run_spec convert can_save input_file output_file w img
              Hin Hsave Hlen Hrgb) as (pixels & Hf & Hrun).
  rewrite Hrun. cbn [fst snd files].
  eexists. split; [reflexivity|]. split; [apply lookup_insert_eq|].
  cbn [getdata]. apply (written_pixels with_alpha_255 _ _ Hf).
  eapply Forall_impl; [exact Hop|].
  intros px (r & g & b & -> & Hr & Hg & Hb & Hm) p Hp.
  cbn in Hp. now apply (opaque_bands r g b).
Qed.

Lemma opaque_pixels_example :
  Forall (fun px => exists r g b,
            px = [r; g; b] /\ byte_range r /\ byte_range g /\ byte_range b /\
            min3 r g b = 0)
         (getdata (example_convert example_opaque "RGB")).
Proof.
  repeat constructor; eexists _, _, _;
    (split; [reflexivity|unfold byte_range, min3; lia]).
Qed.

Lemma opaque_image_is_kept_witness :
  files (example_world example_opaque) !! "in.png" = Some example_opaque /\
  exists out,
    (convert_image_to_transparent example_convert (fun _ => true)
       "in.png" "out.png" (example_world example_opaque)).2 = Ok tt /\
    files (convert_image_to_transparent example_convert (fun _ => true)
             "in.png" "out.png" (example_world example_opaque)).1 !! "out.png"
      = Some out /\
    getdata out = [[200; 0; 17; 255]; [0; 0; 0; 255]].
Proof.
  assert (Hin : files (example_world example_opaque) !! "in.png"
                = Some example_opaque) by apply lookup_singleton_eq.
  exact (conj Hin
    (opaque_image_is_kept example_convert (fun _ => true)
       "in.png" "out.png" (example_world example_opaque) example_opaque
       Hin eq_refl eq_refl opaque_pixels_example)).
Defined.

(** * The command line *)

Section MainFacts.

Variable convert : Image -> string -> Image.
Variable can_save : string -> bool.
Variable program_name : string.

Lemma main_wrong_count (argv : list string) (w : World) :
  length argv <> 3%nat ->
  main convert can_save program_name argv w
    = (print (usage program_name) w, SystemExit 1).
Proof using Type.
  intros Hn. unfold main.
  destruct (Nat.eqb_spec (length argv) 3%nat) as [E|_]; [contradiction|].
  reflexivity.
Qed.

Lemma main_three (prog input_file output_file : string) (w : World) :
  main convert can_save program_name [prog; input_file; output_file] w =
  match convert_image_to_transparent convert can_save
          input_file output_file w with
  | (w', Raise e) => (w', Uncaught e)
  | (w', Ok _) => (print2 COMPLETED output_file w', Finished)
  end.
Proof using Type. reflexivity. Qed.

Lemma three_arguments (argv : list string) :
  length argv = 3%nat -> exists prog i o, argv = [prog; i; o].
Proof using Type.
  destruct argv as [|prog [|i [|o [|x argv]]]]; try discriminate.
  intros _. now exists prog, i, o.
Qed.

End MainFacts.

(** X16. With any number of command-line words other than three (the
    script and two paths) the script prints the usage line and exits with
    status 1 without touching a file, whatever the files are. *)
Theorem wrong_argument_count_does_no_io
    (convert : Image -> string -> Image) (can_save : string -> bool)
    (program_name : string) (argv : list string) (w : World) :
  length argv <> 3%nat ->
  let run := main convert can_save program_name argv w in
  exit_status run.2 = 1 /\
  files run.1 = files w /\
  stdout run.1 = stdout w ++ [usage program_name].
Proof.
  intros Hn run. subst run.
  rewrite (main_wrong_count convert can_save program_name argv w Hn).
  now repeat split.
Qed.

Lemma wrong_argument_count_does_no_io_witness :
  length ["rebuild_transparency.py"; "in.png"] <> 3%nat /\
  let run := main example_convert (fun _ => true) "rebuild_transparency.py"
               ["rebuild_transparency.py"; "in.png"]
               (example_world example_rgb) in
  exit_status run.2 = 1 /\
  files run.1 = files (example_world example_rgb) /\
  stdout run.1 =
    ["Usage: rebuild_transparency.py <input_file> <output_file>"].
Proof.
  assert (Hn : length ["rebuild_transparency.py"; "in.png"] <> 3%nat)
    by (cbn; lia).
  exact (conj Hn
    (wrong_argument_count_does_no_io example_convert (fun _ => true)
       "rebuild_transparency.py" ["rebuild_transparency.py"; "in.png"]
       (example_world example_rgb) Hn)).
Defined.

(** X17. The exit status is 0 or 1, and it is 0 exactly when three
    command-line words were given and the conversion of the second to the
    third ended without an exception. *)
Theorem exit_status_zero_iff_converted
    (convert : Image -> string -> Image) (can_save : string -> bool)
    (program_name : string) (argv : list string) (w : World) :
  let status :=
    exit_status (main convert can_save program_name argv w).2 in
  (status = 0 \/ status = 1) /\
  (status = 0 <->
   exists prog input_file output_file,
     argv = [prog; input_file; output_file] /\
     (convert_image_to_transparent convert can_save
        input_file output_file w).2 = Ok tt).
Proof.
  intros status. subst status.
  destruct (Nat.eq_dec (length argv) 3%nat) as [E|E].
  - destruct (three_arguments argv E) as (prog & i & o & ->).
    rewrite main_three.
    destruct (convert_image_to_transparent convert can_save i o w)
      as [w' [[]|e]] eqn:Hrun; cbn.
    + split; [now left|]. split; [|reflexivity].
      intros _. exists prog, i, o. split; [reflexivity|].
      now rewrite Hrun.
    + split; [now right|]. split; [discriminate|].
      intros (prog' & i' & o' & [= <- <- <-] & H).
      rewrite Hrun in H. discriminate.
  - rewrite (main_wrong_count convert can_save program_name argv w E). cbn.
    split; [now right|]. split; [discriminate|].
    intros (prog & i & o & -> & _). exfalso. now apply E.
Qed.

(** X19. When the script exits with status 0, three command-line words
    were given, the output path was written, and the last line printed is
    the completion line naming the output path, after the warning if there
    was one. *)
Theorem successful_script_reports_output
    (convert : Image -> string -> Image) (can_save : string -> bool)
    (program_name : string) (argv : list string) (w : World) :
  exit_status (main convert can_save program_name argv w).2 = 0 ->
  exists prog input_file output_file out l,
    argv = [prog; input_file; output_file] /\
    (l = [] \/ l = [WARNING]) /\
    files (main convert can_save program_name argv w).1
      = <[output_file := out]> (files w) /\
    stdout (main convert can_save program_name argv w).1
      = stdout w ++ l ++
        [String.append COMPLETED (String.append " " output_file)].
Proof.
  destruct (Nat.eq_dec (length argv) 3%nat) as [E|E].
  - destruct (three_arguments argv E) as (prog & i & o & ->).
    rewrite main_three.
    pose proof (run_outcomes convert can_save i o w) as H. cbv zeta in H.
    destruct (convert_image_to_transparent convert can_save i o w)
      as [w' [[]|e]]; cbn in *; [|discriminate].
    intros _.
    destruct H as (l & Hl & Hout & [(e' & He & _)|(out & _ & F)]);
      [discriminate|].
    exists prog, i, o, out, l. split; [reflexivity|]. split; [exact Hl|].
    split; [exact F|]. now rewrite Hout, app_assoc.
  - rewrite (main_wrong_count convert can_save program_name argv w E). cbn.
    discriminate.
Qed.

Lemma successful_script_reports_output_witness :
  exit_status (main example_convert (fun _ => true) "rebuild_transparency.py"
                 ["rebuild_transparency.py"; "in.png"; "out.png"]
                 (example_world example_paletted)).2 = 0 /\
  exists prog input_file output_file out l,
    ["rebuild_transparency.py"; "in.png"; "out.png"]
      = [prog; input_file; output_file] /\
    (l = [] \/ l = [WARNING]) /\
    files (main example_convert (fun _ => true) "rebuild_transparency.py"
             ["rebuild_transparency.py"; "in.png"; "out.png"]
             (example_world example_paletted)).1
      = <[output_file := out]> (files (example_world example_paletted)) /\
    stdout (main example_convert (fun _ => true) "rebuild_transparency.py"
              ["rebuild_transparency.py"; "in.png"; "out.png"]
              (example_world example_paletted)).1
      = stdout (example_world example_paletted) ++ l ++
        [String.append COMPLETED (String.append " " output_file)].
Proof.
  assert (H : exit_status
                (main example_convert (fun _ => true)
                   "rebuild_transparency.py"
                   ["rebuild_transparency.py"; "in.png"; "out.png"]
                   (example_world example_paletted)).2 = 0)
    by (vm_compute; reflexivity).
  exact (conj H
    (successful_script_reports_output example_convert (fun _ => true)
       "rebuild_transparency.py"
       ["rebuild_transparency.py"; "in.png"; "out.png"]
       (example_world example_paletted) H)).
Defined.



(** X18. When the script exits with a status other than 0 the completion
    line was not printed: what was printed is extended by the usage line,
    by the warning, or by nothing.  No path other than the third
    command-line word, the output, has changed. *)
Theorem failed_script_prints_no_completion
    (convert : Image -> string -> Image) (can_save : string -> bool)
    (program_name : string) (argv : list string) (w : World) :
  exit_status (main convert can_save program_name argv w).2 <> 0 ->
  (stdout (main convert can_save program_name argv w).1
     = stdout w ++ [usage program_name] \/
   stdout (main convert can_save program_name argv w).1
     = stdout w ++ [WARNING] \/
   stdout (main convert can_save program_name argv w).1 = stdout w) /\
  (forall path : string,
     argv !! 2%nat <> Some path ->
     files (main convert can_save program_name argv w).1 !! path
       = files w !! path).
Proof.
  destruct (Nat.eq_dec (length argv) 3%nat) as [E|E].
  - destruct (three_arguments argv E) as (prog & i & o & ->).
    rewrite main_three.
    pose proof (run_outcomes convert can_save i o w) as H. cbv zeta in H.
    destruct (convert_image_to_transparent convert can_save i o w)
      as [w' [[]|e]]; cbn [fst snd exit_status] in *;
      [intros Hc; now contradiction Hc|].
    intros _.
    destruct H as (l & Hl & Hout & [(e' & _ & F)|(out & Hok & _)]);
      [|discriminate].
    split.
    + rewrite Hout.
      destruct Hl as [-> | ->];
        [right; right; apply app_nil_r|right; now left].
    + intros path _. now rewrite F.
  - rewrite (main_wrong_count convert can_save program_name argv w E).
    intros _. split; [now left|]. reflexivity.
Qed.

Lemma failed_script_prints_no_completion_witness :
  exit_status (main example_convert (fun _ => false)
                 "rebuild_transparency.py"
                 ["rebuild_transparency.py"; "in.png"; "out.png"]
                 (example_world example_paletted)).2 <> 0 /\
  stdout (main example_convert (fun _ => false) "rebuild_transparency.py"
            ["rebuild_transparency.py"; "in.png"; "out.png"]
            (example_world example_paletted)).1 = [WARNING] /\
  files (main example_convert (fun _ => false) "rebuild_transparency.py"
           ["rebuild_transparency.py"; "in.png"; "out.png"]
           (example_world example_paletted)).1 !! "in.png"
    = Some example_paletted.
Proof.
  assert (H : exit_status
                (main example_convert (fun _ => false)
                   "rebuild_transparency.py"
                   ["rebuild_transparency.py"; "in.png"; "out.png"]
                   (example_world example_paletted)).2 <> 0)
    by (vm_compute; discriminate).
  pose proof (failed_script_prints_no_completion example_convert
                (fun _ => false) "rebuild_transparency.py"
                ["rebuild_transparency.py"; "in.png"; "out.png"]
                (example_world example_paletted) H) as [Hout Hfiles].
  refine (conj H (conj _ _)).
  - destruct Hout as [Hu|[Hw|Hn]];
      [vm_compute in Hu; discriminate|exact Hw|vm_compute in Hn; discriminate].
  - rewrite (Hfiles "in.png"); [apply lookup_singleton_eq|discriminate].
Defined.
